(** * izuka_llm: the chat-completion facade and the agent loop

    A shallow embedding of [izuka_llm/schemas/dto.py],
    [izuka_llm/app/openai_compatable.py], [izuka_llm/app/api.py] and
    [izuka_llm/agents/character.py], and the properties of the
    specification proved (or refuted) on it. *)

From Stdlib Require Import ZArith NArith Lia.
From stdpp Require Import gmap strings list fin_maps.

Local Open Scope Z_scope.

(** ** Python values *)

(** A Python [str] is a sequence of Unicode code points; [len] counts code
    points, not bytes. *)
Abbreviation str := (list N).

Module Utf8.

(** Literals of the source are written as they stand in the Python files
    and decoded from the UTF-8 bytes of the Rocq string. *)
Fixpoint bytes (s : string) : list N :=
  match s with
  | EmptyString => []
  | String a s' => Ascii.N_of_ascii a :: bytes s'
  end.

Fixpoint decode (bs : list N) : list N :=
  match bs with
  | [] => []
  | b :: r =>
      if (b <? 128)%N then b :: decode r
      else if (b <? 224)%N then
        match r with
        | c1 :: r' => ((b mod 32) * 64 + c1 mod 64)%N :: decode r'
        | _ => []
        end
      else if (b <? 240)%N then
        match r with
        | c1 :: c2 :: r' =>
            ((b mod 16) * 4096 + (c1 mod 64) * 64 + c2 mod 64)%N :: decode r'
        | _ => []
        end
      else
        match r with
        | c1 :: c2 :: c3 :: r' =>
            ((b mod 8) * 262144 + (c1 mod 64) * 4096
             + (c2 mod 64) * 64 + c3 mod 64)%N :: decode r'
        | _ => []
        end
  end.

End Utf8.

Definition lit (s : string) : str := Utf8.decode (Utf8.bytes s).
Arguments lit : simpl never.

(** [len(s)] as a Python [int]. *)
Definition len {A} (l : list A) : Z := Z.of_nat (length l).

(** Exceptions raised by the modelled code. [ToolError] stands for whatever
    a tool raises; its payload is what identifies the exception object. *)
Inductive PyExc :=
| KeyError (key : str)
| IndexError
| AttributeError (attr : str)
| HTTPException (status_code : Z) (detail : str)
| ToolError (payload : str).

Inductive result (A : Type) :=
| Ok (a : A)
| Raise (e : PyExc).
Arguments Ok {A} a.
Arguments Raise {A} e.

Definition result_value {A} (r : result A) : option A :=
  match r with
  | Ok a => Some a
  | Raise _ => None
  end.

Definition rbind {A B} (r : result A) (k : A -> result B) : result B :=
  match r with
  | Ok a => k a
  | Raise e => Raise e
  end.

(** [d[k]] on a dict: [KeyError] when the key is absent. *)
Definition getitem (d : gmap (list N) (list N)) (k : str) : result str :=
  match d !! k with
  | Some v => Ok v
  | None => Raise (KeyError k)
  end.

(** ** schemas/dto.py *)

Module Role.
(** [Literal["system", "user", "assistant"]] *)
Inductive t := system | user | assistant.

#[global] Instance eq_dec : EqDecision t.
Proof. solve_decision. Defined.

Definition value (r : t) : str :=
  match r with
  | system => lit "system"
  | user => lit "user"
  | assistant => lit "assistant"
  end.
End Role.

Module ChatMessage.
Record t := mk { role : Role.t; content : str }.

(** [msg.model_dump()] *)
Definition model_dump (m : t) : gmap (list N) (list N) :=
  <[lit "content" := content m]> {[ lit "role" := Role.value (role m) ]}.
End ChatMessage.

Module ChatCompletionRequest.
(** [temperature] is a float the endpoint never reads; it is kept as its
    IEEE 754 bit pattern. *)
Record t := mk {
  model : str;
  messages : list ChatMessage.t;
  temperature : option N;
  max_tokens : option Z
}.
End ChatCompletionRequest.

Module UsageInfo.
Record t := mk {
  prompt_tokens : Z;
  completion_tokens : Z;
  total_tokens : Z
}.
End UsageInfo.

Module FinishReason.
(** [Literal["stop", "length"]] *)
Inductive t := stop | length.
End FinishReason.

Module ChatChoice.
Record t := mk {
  index : Z;
  message : ChatMessage.t;
  finish_reason : FinishReason.t
}.
End ChatChoice.

Module ChatCompletionResponse.
Record t := mk {
  id : str;
  object : str;
  created : Z;
  model : str;
  choices : list ChatChoice.t;
  usage : UsageInfo.t
}.
End ChatCompletionResponse.

Module ModelInfo.
Record t := mk {
  id : str;
  object : str;
  created : Z;
  owned_by : str
}.
End ModelInfo.

Module ModelList.
Record t := mk {
  object : str;
  data : list ModelInfo.t
}.
End ModelList.

(** ** The process environment

    The default factories of the DTOs read the clock and draw a UUID, and the
    endpoint logs its response.  The world holds what those calls will
    return, how many were made, and the log. *)

Record World := mkWorld {
  clock : nat -> Z;          (* the value of the k-th [int(time.time())] *)
  clock_reads : nat;
  uuid_hex : nat -> str;     (* the k-th [uuid.uuid4().hex] *)
  uuid_draws : nat;
  log : list ChatCompletionResponse.t
}.

Definition M (A : Type) : Type := World -> result A * World.

Definition ret {A} (a : A) : M A := fun w => (Ok a, w).
Definition raise {A} (e : PyExc) : M A := fun w => (Raise e, w).
Definition bind {A B} (c : M A) (k : A -> M B) : M B :=
  fun w =>
    match c w with
    | (Ok a, w') => k a w'
    | (Raise e, w') => (Raise e, w')
    end.
Definition lift {A} (r : result A) : M A := fun w => (r, w).

Declare Scope py_scope.
Delimit Scope py_scope with py.
Notation "x <- c ;; k" := (bind c (fun x => k))
  (at level 100, c at next level, right associativity) : py_scope.
Notation "c ;;; k" := (bind c (fun _ => k))
  (at level 100, right associativity) : py_scope.
Notation "x <~ r ;; k" := (rbind r (fun x => k))
  (at level 100, r at next level, right associativity) : py_scope.

Definition time_time : M Z := fun w =>
  (Ok (clock w (clock_reads w)),
   mkWorld (clock w) (S (clock_reads w)) (uuid_hex w) (uuid_draws w) (log w)).

Definition uuid4_hex : M str := fun w =>
  (Ok (uuid_hex w (uuid_draws w)),
   mkWorld (clock w) (clock_reads w) (uuid_hex w) (S (uuid_draws w)) (log w)).

Definition logger_debug (r : ChatCompletionResponse.t) : M unit := fun w =>
  (Ok tt,
   mkWorld (clock w) (clock_reads w) (uuid_hex w) (uuid_draws w) (log w ++ [r])).

(** Constructors with the default factories of dto.py. *)
Definition new_ModelInfo (id : str) : M ModelInfo.t :=
  (created <- time_time ;;
   ret (ModelInfo.mk id (lit "model") created (lit "local-api")))%py.

Definition new_ChatCompletionResponse
    (model : str) (choices : list ChatChoice.t) (usage : UsageInfo.t)
  : M ChatCompletionResponse.t :=
  (hex <- uuid4_hex ;;
   created <- time_time ;;
   ret (ChatCompletionResponse.mk (lit "chatcmpl-" ++ hex)
          (lit "chat.completion") created model choices usage))%py.

(** ** app/openai_compatable.py *)

Definition greeting : str := lit "你好！有什么可以帮助你的吗？".
Definition template_prefix : str := lit "这是一个模拟回复，针对你的问题：'".
Definition template_suffix : str := lit "'。".

(** The f-string of [fake_llm_call]. *)
Definition template (q : str) : str := template_prefix ++ q ++ template_suffix.

(** The [for msg in reversed(messages)] loop of [fake_llm_call], run on the
    reversed list: the value of [last_user_message] when the loop ends. *)
Fixpoint scan_for_user (ms : list (gmap (list N) (list N))) : result str :=
  match ms with
  | [] => Ok []
  | msg :: rest =>
      (r <~ getitem msg (lit "role") ;;
       if decide (r = lit "user") then getitem msg (lit "content")
       else scan_for_user rest)%py
  end.

Definition fake_llm_call (messages : list (gmap (list N) (list N))) : result str :=
  (last_user_message <~ scan_for_user (rev messages) ;;
   if decide (last_user_message = []) then Ok greeting
   else Ok (template last_user_message))%py.

Definition list_models : M ModelList.t :=
  (m1 <- new_ModelInfo (lit "gpt-3.5-turbo") ;;
   m2 <- new_ModelInfo (lit "gpt-4") ;;
   m3 <- new_ModelInfo (lit "custom-local-model") ;;
   let available_models := [m1; m2; m3] in
   ret (ModelList.mk (lit "list") available_models))%py.

Definition supported_models : list str :=
  [lit "gpt-3.5-turbo"; lit "gpt-4"; lit "custom-local-model"].

(** [sum(len(msg['content']) for msg in messages_dict)] *)
Fixpoint sum_content_len (ds : list (gmap (list N) (list N))) : result Z :=
  match ds with
  | [] => Ok 0
  | d :: rest =>
      (c <~ getitem d (lit "content") ;;
       n <~ sum_content_len rest ;;
       Ok (len c + n))%py
  end.

Definition create_chat_completion (request : ChatCompletionRequest.t)
  : M ChatCompletionResponse.t :=
  let model := ChatCompletionRequest.model request in
  if decide (model ∉ supported_models) then
    raise (HTTPException 400 (lit "Model '" ++ model ++ lit "' not found."))
  else
    (let messages_dict :=
       map ChatMessage.model_dump (ChatCompletionRequest.messages request) in
     assistant_response_content <- lift (fake_llm_call messages_dict) ;;
     let assistant_message :=
       ChatMessage.mk Role.assistant assistant_response_content in
     let choice := ChatChoice.mk 0 assistant_message FinishReason.stop in
     prompt_tokens <- lift (sum_content_len messages_dict) ;;
     let completion_tokens := len assistant_response_content in
     let usage :=
       UsageInfo.mk prompt_tokens completion_tokens
         (prompt_tokens + completion_tokens) in
     response <- new_ChatCompletionResponse model [choice] usage ;;
     logger_debug response ;;;
     ret response)%py.

(** Whether a request message has role "user". *)
Definition is_user (m : ChatMessage.t) : bool :=
  bool_decide (ChatMessage.role m = Role.user).

(** The sum of the lengths of the contents, as a Python [int]. *)
Fixpoint total_content_len (ms : list ChatMessage.t) : Z :=
  match ms with
  | [] => 0
  | m :: rest => len (ChatMessage.content m) + total_content_len rest
  end.

(** The response built for a request that passes the model check, given the
    reply of the stub. *)
Definition response_of (request : ChatCompletionRequest.t) (w : World) (c : str)
  : ChatCompletionResponse.t :=
  let ms := ChatCompletionRequest.messages request in
  ChatCompletionResponse.mk
    (lit "chatcmpl-" ++ uuid_hex w (uuid_draws w))
    (lit "chat.completion")
    (clock w (clock_reads w))
    (ChatCompletionRequest.model request)
    [ChatChoice.mk 0 (ChatMessage.mk Role.assistant c) FinishReason.stop]
    (UsageInfo.mk (total_content_len ms) (len c) (total_content_len ms + len c)).

(** A world to evaluate the endpoints in. *)
Definition w0 : World :=
  mkWorld (fun _ => 1700000000) 0 (fun _ => lit "0123456789abcdef") 0 [].

Definition req_hi : ChatCompletionRequest.t :=
  ChatCompletionRequest.mk (lit "gpt-4")
    [ChatMessage.mk Role.user (lit "hi")] None None.

Definition req_empty : ChatCompletionRequest.t :=
  ChatCompletionRequest.mk (lit "gpt-4")
    [ChatMessage.mk Role.user []] None None.

Definition req_system_only : ChatCompletionRequest.t :=
  ChatCompletionRequest.mk (lit "gpt-3.5-turbo")
    [ChatMessage.mk Role.system (lit "be brief");
     ChatMessage.mk Role.assistant (lit "ok")] None None.

Definition req_unknown_model : ChatCompletionRequest.t :=
  ChatCompletionRequest.mk (lit "gpt-5")
    [ChatMessage.mk Role.user (lit "hi")] None None.

(** ** app/api.py and the routes of openai_compatable.py *)

Inductive Method := GET | POST.

#[global] Instance Method_eq_dec : EqDecision Method.
Proof. solve_decision. Defined.

Inductive Endpoint :=
| ep_list_models
| ep_create_chat_completion
| ep_redirect_model_api.

Record Route := mkRoute {
  route_method : Method;
  route_path : str;
  route_endpoint : Endpoint
}.

Record APIRouter := mkAPIRouter {
  prefix : str;
  routes : list Route
}.

(** [@router.get(path)] and [@router.post(path)]: the route is registered
    under the router's prefix followed by [path]. *)
Definition add_api_route (r : APIRouter) (m : Method) (path : str) (e : Endpoint)
  : APIRouter :=
  mkAPIRouter (prefix r) (routes r ++ [mkRoute m (prefix r ++ path) e]).

(** [router = APIRouter(prefix="/v1")] and its three decorated functions. *)
Definition router : APIRouter :=
  let r0 := mkAPIRouter (lit "/v1") [] in
  let r1 := add_api_route r0 GET (lit "/models") ep_list_models in
  let r2 := add_api_route r1 POST (lit "/chat/completions") ep_create_chat_completion in
  add_api_route r2 GET (lit "/model") ep_redirect_model_api.

(** [app = FastAPI()] followed by [app.include_router(router.router)]: the
    application serves the routes of the router, with no further prefix. *)
Definition app_routes : list Route := [] ++ routes router.

(** The first route whose method and path are those of the request; [None]
    is the framework's 404. *)
Fixpoint resolve (rs : list Route) (m : Method) (path : str) : option Endpoint :=
  match rs with
  | [] => None
  | r :: rest =>
      if decide (route_method r = m /\ route_path r = path)
      then Some (route_endpoint r)
      else resolve rest m path
  end.

Record RedirectResponse := mkRedirect {
  redirect_status : Z;
  redirect_url : str
}.

(** [RedirectResponse(url="/v1/models")]; the status code defaults to 307. *)
Definition redirect_model_api : RedirectResponse :=
  mkRedirect 307 (lit "/v1/models").

(** ** agents/character.py *)

Module ToolCall.
(** A tool call of an assistant message: [name], [args] and [id]. *)
Record t := mk {
  name : str;
  args : gmap (list N) (list N);
  id : str
}.
End ToolCall.

(** The message classes the module imports.  Only [AIMessage] has a
    [tool_calls] attribute. *)
Inductive BaseMessage :=
| HumanMessage (content : str)
| AIMessage (content : str) (tool_calls : list ToolCall.t)
| ToolMessage (content : str) (tool_call_id : str).

Record AgentState := mkState { messages : list BaseMessage }.

(** [messages[-1]] *)
Definition last_item {A} (l : list A) : result A :=
  match last l with
  | Some x => Ok x
  | None => Raise IndexError
  end.

Definition hasattr_tool_calls (m : BaseMessage) : bool :=
  match m with
  | AIMessage _ _ => true
  | _ => false
  end.

(** [m.tool_calls] *)
Definition get_tool_calls (m : BaseMessage) : result (list ToolCall.t) :=
  match m with
  | AIMessage _ tcs => Ok tcs
  | _ => Raise (AttributeError (lit "tool_calls"))
  end.

(** The channel [messages] is annotated with [operator.add]: the update a
    node returns is appended to the state. *)
Definition apply_update (state : AgentState) (update : list BaseMessage) : AgentState :=
  mkState (messages state ++ update).

(** [m.tool_call_id] of a tool-result message. *)
Definition tool_call_id_of (m : BaseMessage) : option str :=
  match m with
  | ToolMessage _ i => Some i
  | _ => None
  end.

(** [langgraph.graph.END] is the string ["__end__"]. *)
Definition langgraph_END : str := lit "__end__".

Inductive Outcome :=
| Finished (state : AgentState)
| Interrupted (before : str) (state : AgentState)
| Crashed (e : PyExc) (state : AgentState)
| OutOfFuel (node : str) (state : AgentState).

Section Agent.

(** The collaborators of the loop: the terminal marker of the graph
    library, the bound chat model, and the tool executor with the
    conversions applied to its outputs. *)
Variable END : str.
Variable Value : Type.
Variable model_invoke : list BaseMessage -> result BaseMessage.
(** [tool_executor.batch(calls, return_exceptions=True)]: one output per
    call, an exception object where the call raised. *)
Variable batch : list ToolCall.t -> list (result Value).
Variable to_str : Value -> str.
Variable repr : PyExc -> str.

Definition agent_node (state : AgentState) : result (list BaseMessage) :=
  (let messages := messages state in
   response <~ model_invoke messages ;;
   Ok [response])%py.

(** The body of the [for output, tool_call in zip(...)] loop: the message
    appended to [tool_messages]. *)
Definition tool_message (output : result Value) (tool_call : ToolCall.t)
  : BaseMessage :=
  match output with
  | Raise e => ToolMessage (lit "Error: " ++ repr e) (ToolCall.id tool_call)
  | Ok v => ToolMessage (to_str v) (ToolCall.id tool_call)
  end.

Definition tools_node (state : AgentState) : result (list BaseMessage) :=
  (let messages := messages state in
   last_message <~ last_item messages ;;
   calls <~ get_tool_calls last_message ;;
   let tool_outputs := batch calls in
   let tool_messages :=
     fold_left (fun acc p => acc ++ [tool_message (fst p) (snd p)])
               (zip tool_outputs calls) [] in
   Ok tool_messages)%py.

(** The truth value of a list: false exactly when it is empty. *)
Definition truthy {A} (l : list A) : bool :=
  match l with
  | [] => false
  | _ :: _ => true
  end.

Definition should_continue (state : AgentState) : result str :=
  (let messages := messages state in
   last_message <~ last_item messages ;;
   calls_requested <~
     (if hasattr_tool_calls last_message
      then (tcs <~ get_tool_calls last_message ;; Ok (truthy tcs))
      else Ok false) ;;
   if calls_requested : bool then Ok (lit "tools") else Ok END)%py.

(** *** The graph *)

Record StateGraph := mkGraph {
  nodes : gmap (list N) (AgentState -> result (list BaseMessage));
  entry_point : option (list N);
  branches : gmap (list N) ((AgentState -> result (list N)) * gmap (list N) (list N));
  edges : gmap (list N) (list N)
}.

Definition add_node (name : str) (f : AgentState -> result (list BaseMessage))
    (g : StateGraph) : StateGraph :=
  mkGraph (<[name := f]> (nodes g)) (entry_point g) (branches g) (edges g).

Definition set_entry_point (name : str) (g : StateGraph) : StateGraph :=
  mkGraph (nodes g) (Some name) (branches g) (edges g).

Definition add_conditional_edges (source : str)
    (path : AgentState -> result (list N)) (path_map : gmap (list N) (list N))
    (g : StateGraph) : StateGraph :=
  mkGraph (nodes g) (entry_point g) (<[source := (path, path_map)]> (branches g))
          (edges g).

Definition add_edge (start_key end_key : str) (g : StateGraph) : StateGraph :=
  mkGraph (nodes g) (entry_point g) (branches g) (<[start_key := end_key]> (edges g)).

(** The dict given to [add_conditional_edges]. *)
Definition path_map : gmap (list N) (list N) :=
  <[lit "END" := END]> {[ lit "tools" := lit "tools" ]}.

Definition workflow : StateGraph :=
  let g := mkGraph ∅ None ∅ ∅ in
  let g := add_node (lit "agent") agent_node g in
  let g := add_node (lit "tools") tools_node g in
  let g := set_entry_point (lit "agent") g in
  let g := add_conditional_edges (lit "agent") should_continue path_map g in
  add_edge (lit "tools") (lit "agent") g.

(** Where control goes once [node] has run and its update is in [state].
    A conditional edge calls its function and looks the returned key up in
    its dict; a plain edge names the next node; a node with neither ends
    the run. *)
Definition next_node (g : StateGraph) (node : str) (state : AgentState)
  : result str :=
  match branches g !! node with
  | Some (path, pm) => (key <~ path state ;; getitem pm key)%py
  | None =>
      match edges g !! node with
      | Some dest => Ok dest
      | None => Ok END
      end
  end.

(** One step: run [node], append its update, route. *)
Definition step (g : StateGraph) (node : str) (state : AgentState)
  : result (str * AgentState) :=
  match nodes g !! node with
  | None => Raise (KeyError node)
  | Some f =>
      (update <~ f state ;;
       let state' := apply_update state update in
       next <~ next_node g node state' ;;
       Ok (next, state'))%py
  end.

(** The compiled graph, [interrupt_before] being the nodes before which a
    run is suspended; [resumed] tells that the run was resumed at [node]. *)
Fixpoint run (fuel : nat) (g : StateGraph) (interrupt_before : list (list N))
    (resumed : bool) (node : str) (state : AgentState) : Outcome :=
  if decide (node = END) then Finished state
  else if negb resumed && bool_decide (node ∈ interrupt_before)
  then Interrupted node state
  else
    match fuel with
    | O => OutOfFuel node state
    | S fuel' =>
        match step g node state with
        | Raise e => Crashed e state
        | Ok (next, state') => run fuel' g interrupt_before false next state'
        end
    end.

(** [app = workflow.compile(checkpointer=memory, interrupt_before=["tools"])],
    started at the entry point. *)
Definition app_stream (fuel : nat) (initial : AgentState) : Outcome :=
  match entry_point workflow with
  | Some start => run fuel workflow [lit "tools"] false start initial
  | None => Crashed (KeyError (lit "__start__")) initial
  end.

(** Resuming a run that was suspended before [node]. *)
Definition app_resume (fuel : nat) (node : str) (state : AgentState) : Outcome :=
  run fuel workflow [lit "tools"] true node state.

End Agent.

(** *** Collaborators and states to evaluate the loop on *)

Definition demo_calls : list ToolCall.t :=
  [ToolCall.mk (lit "search") ∅ (lit "call_1");
   ToolCall.mk (lit "clock") ∅ (lit "call_2")].

(** An executor whose "search" tool raises and whose other tools return. *)
Definition demo_batch (calls : list ToolCall.t) : list (result (list N)) :=
  map (fun tc =>
         if decide (ToolCall.name tc = lit "search")
         then Raise (ToolError (lit "boom"))
         else Ok (lit "12:00"))
      calls.

Definition demo_repr (e : PyExc) : str :=
  match e with
  | ToolError p => lit "RuntimeError('" ++ p ++ lit "')"
  | _ => lit "Exception()"
  end.

(** A model that answers without asking for a tool. *)
Definition demo_model (ms : list BaseMessage) : result BaseMessage :=
  Ok (AIMessage (lit "done") []).

Definition state_question : AgentState :=
  mkState [HumanMessage (lit "hi")].

Definition state_final_answer : AgentState :=
  mkState [HumanMessage (lit "hi"); AIMessage (lit "done") []].

Definition state_tool_request : AgentState :=
  mkState [HumanMessage (lit "hi"); AIMessage [] demo_calls].

(** *** The state an outcome carries *)

Definition outcome_state (o : Outcome) : AgentState :=
  match o with
  | Finished state => state
  | Interrupted _ state => state
  | Crashed _ state => state
  | OutOfFuel _ state => state
  end.

(** *** The API keys (the [try] block at the head of the module)

    [environ] is [os.environ]; [getpass] gives, for a prompt, what the user
    enters or the exception the call raises. *)

Inductive Startup :=
| Continue (environ : gmap (list N) (list N))
| Exit.

(** [if KEY not in os.environ: os.environ[KEY] = getpass(prompt)] *)
Definition ensure_key (key prompt : str) (getpass : str -> result (list N))
    (environ : gmap (list N) (list N)) : result (gmap (list N) (list N)) :=
  match environ !! key with
  | Some _ => Ok environ
  | None => (v <~ getpass prompt ;; Ok (<[key := v]> environ))%py
  end.

(** The [except Exception] branch prints the error and calls [exit()]. *)
Definition set_api_keys (getpass : str -> result (list N))
    (environ : gmap (list N) (list N)) : Startup :=
  match
    (environ <~ ensure_key (lit "OPENAI_API_KEY")
                  (lit "Enter your OpenAI API key: ") getpass environ ;;
     ensure_key (lit "TAVILY_API_KEY")
       (lit "Enter your Tavily API key: ") getpass environ)%py
  with
  | Ok environ' => Continue environ'
  | Raise _ => Exit
  end.

Definition demo_getpass (prompt : str) : result (list N) :=
  if decide (prompt = lit "Enter your OpenAI API key: ") then Ok (lit "sk-demo")
  else Raise (ToolError (lit "EOFError()")).

Definition demo_environ : gmap (list N) (list N) :=
  {[ lit "TAVILY_API_KEY" := lit "tvly-demo" ]}.

(** A model that asks for the demo tools whatever the conversation. *)
Definition demo_model_tools (ms : list BaseMessage) : result BaseMessage :=
  Ok (AIMessage [] demo_calls).

(** A model whose call fails. *)
Definition demo_model_down (ms : list BaseMessage) : result BaseMessage :=
  Raise (ToolError (lit "ConnectionError()")).

(** A raw message dict without a "role" key, and one with role "user" and no
    "content" key. *)
Definition dict_without_role : gmap (list N) (list N) :=
  {[ lit "content" := lit "hi" ]}.

Definition dict_user_without_content : gmap (list N) (list N) :=
  {[ lit "role" := lit "user" ]}.

Definition dict_user_hi : gmap (list N) (list N) :=
  ChatMessage.model_dump (ChatMessage.mk Role.user (lit "hi")).

(** A raw message dict that has a role, and not the role "user". *)
Definition other_role (d : gmap (list N) (list N)) : Prop :=
  exists r, d !! lit "role" = Some r /\ r <> lit "user".

(** * Properties *)

(** ** The literals *)

(** The code points of the two Chinese texts, as Python sees them. *)
Lemma greeting_code_points :
  greeting = [20320; 22909; 65281; 26377; 20160; 20040; 21487; 20197;
              24110; 21161; 20320; 30340; 21527; 65311]%N.
Proof. reflexivity. Qed.

Lemma template_code_points q :
  template q =
  [36825; 26159; 19968; 20010; 27169; 25311; 22238; 22797; 65292; 38024;
   23545; 20320; 30340; 38382; 39064; 65306; 39]%N ++ q ++ [39; 12290]%N.
Proof. reflexivity. Qed.

Lemma template_length q : len (template q) = 19 + len q.
Proof.
  rewrite template_code_points. unfold len.
  rewrite !length_app. simpl length. lia.
Qed.

Lemma greeting_not_template q : greeting <> template q.
Proof.
  rewrite greeting_code_points, template_code_points. discriminate.
Qed.

Lemma role_value_user r : Role.value r = lit "user" <-> r = Role.user.
Proof. destruct r; split; intros H; try reflexivity; discriminate H. Qed.

(** ** [model_dump] and the loops over the dumped messages *)

Lemma getitem_role m :
  getitem (ChatMessage.model_dump m) (lit "role")
  = Ok (Role.value (ChatMessage.role m)).
Proof.
  unfold getitem, ChatMessage.model_dump.
  rewrite lookup_insert_ne by discriminate.
  by rewrite lookup_singleton_eq.
Qed.

Lemma getitem_content m :
  getitem (ChatMessage.model_dump m) (lit "content") = Ok (ChatMessage.content m).
Proof.
  unfold getitem, ChatMessage.model_dump. by rewrite lookup_insert_eq.
Qed.

(** The loop of [fake_llm_call] stops at the first entry with role "user" of
    the list it walks. *)
Lemma scan_for_user_dump (l : list ChatMessage.t) :
  scan_for_user (map ChatMessage.model_dump l)
  = Ok (match find is_user l with
        | Some m => ChatMessage.content m
        | None => []
        end).
Proof.
  induction l as [|m l IH]; [reflexivity|].
  cbn [map scan_for_user find]. rewrite getitem_role. cbn [rbind].
  unfold is_user at 1.
  destruct (decide (Role.value (ChatMessage.role m) = lit "user")) as [Hu|Hu].
  - apply role_value_user in Hu. rewrite bool_decide_eq_true_2 by exact Hu.
    apply getitem_content.
  - rewrite bool_decide_eq_false_2; [exact IH|].
    intros Hr. apply Hu. by apply role_value_user.
Qed.

Lemma find_skip {A} (f : A -> bool) (l1 l2 : list A) :
  Forall (fun x => f x = false) l1 -> find f (l1 ++ l2) = find f l2.
Proof.
  induction 1 as [|x l1 Hx _ IH]; [reflexivity|].
  cbn [app find]. by rewrite Hx.
Qed.

Lemma find_none {A} (f : A -> bool) (l : list A) :
  Forall (fun x => f x = false) l -> find f l = None.
Proof.
  intros H. rewrite <- (app_nil_r l). by rewrite find_skip.
Qed.

Lemma not_user_false (l : list ChatMessage.t) :
  Forall (fun m => ChatMessage.role m <> Role.user) l ->
  Forall (fun m => is_user m = false) l.
Proof.
  intros H. eapply Forall_impl; [exact H|].
  intros m Hm. by apply bool_decide_eq_false_2.
Qed.

(** The reply when the list has a last "user" entry [m]. *)
Lemma fake_llm_call_last_user (pre post : list ChatMessage.t) m :
  ChatMessage.role m = Role.user ->
  Forall (fun m' => ChatMessage.role m' <> Role.user) post ->
  fake_llm_call (map ChatMessage.model_dump (pre ++ m :: post))
  = Ok (if decide (ChatMessage.content m = []) then greeting
        else template (ChatMessage.content m)).
Proof.
  intros Hm Hpost. unfold fake_llm_call.
  rewrite <- map_rev, scan_for_user_dump.
  rewrite rev_app_distr. cbn [rev]. rewrite <- app_assoc. cbn [app].
  rewrite find_skip.
  2:{ apply not_user_false. apply Forall_forall. intros x Hx.
      apply (proj1 (Forall_forall _ _) Hpost). apply list_elem_of_In.
      apply in_rev. by apply list_elem_of_In. }
  cbn [find]. unfold is_user. rewrite bool_decide_eq_true_2 by exact Hm.
  cbn [rbind]. by destruct (decide (ChatMessage.content m = [])).
Qed.

(** The reply when the list has no "user" entry. *)
Lemma fake_llm_call_no_user (ms : list ChatMessage.t) :
  Forall (fun m => ChatMessage.role m <> Role.user) ms ->
  fake_llm_call (map ChatMessage.model_dump ms) = Ok greeting.
Proof.
  intros Hms. unfold fake_llm_call.
  rewrite <- map_rev, scan_for_user_dump, find_none; [reflexivity|].
  apply not_user_false. apply Forall_forall. intros x Hx.
  apply (proj1 (Forall_forall _ _) Hms). apply list_elem_of_In.
  apply in_rev. by apply list_elem_of_In.
Qed.

(** On dumped messages the stub never raises. *)
Lemma fake_llm_call_total (ms : list ChatMessage.t) :
  exists c, fake_llm_call (map ChatMessage.model_dump ms) = Ok c.
Proof.
  unfold fake_llm_call. rewrite <- map_rev, scan_for_user_dump. cbn [rbind].
  destruct (decide _); eauto.
Qed.

Lemma sum_content_len_dump (ms : list ChatMessage.t) :
  sum_content_len (map ChatMessage.model_dump ms) = Ok (total_content_len ms).
Proof.
  induction ms as [|m ms IH]; [reflexivity|].
  cbn [map sum_content_len total_content_len].
  by rewrite getitem_content, IH.
Qed.

(** ** The chat-completion endpoint *)

Lemma create_chat_completion_supported request w :
  ChatCompletionRequest.model request ∈ supported_models ->
  exists c,
    fake_llm_call
      (map ChatMessage.model_dump (ChatCompletionRequest.messages request)) = Ok c
    /\ create_chat_completion request w
       = (Ok (response_of request w c),
          mkWorld (clock w) (S (clock_reads w)) (uuid_hex w) (S (uuid_draws w))
                  (log w ++ [response_of request w c])).
Proof.
  intros Hin.
  destruct (fake_llm_call_total (ChatCompletionRequest.messages request)) as [c Hc].
  exists c. split; [exact Hc|].
  unfold create_chat_completion.
  destruct (decide (ChatCompletionRequest.model request ∉ supported_models))
    as [Hout|_]; [by destruct Hout|].
  unfold bind, lift. rewrite Hc, sum_content_len_dump. reflexivity.
Qed.

Lemma create_chat_completion_unsupported request w :
  ChatCompletionRequest.model request ∉ supported_models ->
  create_chat_completion request w
  = (Raise (HTTPException 400
              (lit "Model '" ++ ChatCompletionRequest.model request
               ++ lit "' not found.")), w).
Proof.
  intros Hout. unfold create_chat_completion.
  destruct (decide (ChatCompletionRequest.model request ∉ supported_models))
    as [_|Hin]; [reflexivity|by destruct Hin].
Qed.

Ltac supported_model :=
  unfold supported_models;
  first [ apply list_elem_of_here
        | apply list_elem_of_further, list_elem_of_here
        | apply list_elem_of_further, list_elem_of_further, list_elem_of_here ].

(** C2, as stated, fails: a request whose last "user" entry has empty content
    is answered with the greeting, not with the template applied to the
    empty string. *)
Lemma C2_empty_user_content_gets_greeting :
  ~ (forall request w pre m post,
        ChatCompletionRequest.messages request = pre ++ m :: post ->
        ChatMessage.role m = Role.user ->
        Forall (fun m' => ChatMessage.role m' <> Role.user) post ->
        exists resp w',
          create_chat_completion request w = (Ok resp, w')
          /\ ChatCompletionResponse.choices resp
             = [ChatChoice.mk 0
                  (ChatMessage.mk Role.assistant (template (ChatMessage.content m)))
                  FinishReason.stop]).
Proof.
  intros H.
  destruct (H req_empty w0 [] (ChatMessage.mk Role.user []) []
              eq_refl eq_refl (Forall_nil_2 _))
    as (resp & w' & Hrun & Hchoices).
  destruct (create_chat_completion_supported req_empty w0) as (c & Hc & Hrun');
    [supported_model|].
  rewrite Hrun' in Hrun. injection Hrun as <- _.
  vm_compute in Hc. injection Hc as <-.
  vm_compute in Hchoices. discriminate Hchoices.
Qed.

(** C2 (amended): for a request with a supported model whose last "user"
    entry has non-empty content, the endpoint returns one assistant message
    whose content is the template applied to that content. *)
Theorem C2_template_of_last_user request w pre m post :
  ChatCompletionRequest.model request ∈ supported_models ->
  ChatCompletionRequest.messages request = pre ++ m :: post ->
  ChatMessage.role m = Role.user ->
  Forall (fun m' => ChatMessage.role m' <> Role.user) post ->
  ChatMessage.content m <> [] ->
  exists resp w',
    create_chat_completion request w = (Ok resp, w')
    /\ ChatCompletionResponse.choices resp
       = [ChatChoice.mk 0
            (ChatMessage.mk Role.assistant (template (ChatMessage.content m)))
            FinishReason.stop].
Proof.
  intros Hin Hms Hm Hpost Hne.
  destruct (create_chat_completion_supported request w Hin) as (c & Hc & Hrun).
  rewrite Hms, (fake_llm_call_last_user pre post m Hm Hpost) in Hc.
  destruct (decide (ChatMessage.content m = [])) as [He|_]; [by destruct Hne|].
  injection Hc as <-.
  eexists _, _. split; [exact Hrun|reflexivity].
Qed.

Lemma C2_template_of_last_user_witness :
  exists resp w',
    create_chat_completion req_hi w0 = (Ok resp, w')
    /\ ChatCompletionResponse.choices resp
       = [ChatChoice.mk 0
            (ChatMessage.mk Role.assistant (template (lit "hi")))
            FinishReason.stop].
Proof.
  apply (C2_template_of_last_user req_hi w0 []
           (ChatMessage.mk Role.user (lit "hi")) []).
  - supported_model.
  - reflexivity.
  - reflexivity.
  - apply Forall_nil_2.
  - discriminate.
Defined.

(** C3: when no entry of the message list has role "user", the stub returns
    the greeting, and the endpoint (for a supported model) returns it as the
    content of its assistant message. *)
Theorem C3_no_user_greeting request w :
  Forall (fun m => ChatMessage.role m <> Role.user)
         (ChatCompletionRequest.messages request) ->
  fake_llm_call
    (map ChatMessage.model_dump (ChatCompletionRequest.messages request))
  = Ok greeting
  /\ (ChatCompletionRequest.model request ∈ supported_models ->
      exists resp w',
        create_chat_completion request w = (Ok resp, w')
        /\ ChatCompletionResponse.choices resp
           = [ChatChoice.mk 0 (ChatMessage.mk Role.assistant greeting)
                FinishReason.stop]).
Proof.
  intros Hno. pose proof (fake_llm_call_no_user _ Hno) as Hg.
  split; [exact Hg|]. intros Hin.
  destruct (create_chat_completion_supported request w Hin) as (c & Hc & Hrun).
  rewrite Hg in Hc. injection Hc as <-.
  eexists _, _. split; [exact Hrun|reflexivity].
Qed.

Lemma C3_no_user_greeting_witness :
  fake_llm_call
    (map ChatMessage.model_dump (ChatCompletionRequest.messages req_system_only))
  = Ok greeting
  /\ exists resp w',
       create_chat_completion req_system_only w0 = (Ok resp, w')
       /\ ChatCompletionResponse.choices resp
          = [ChatChoice.mk 0 (ChatMessage.mk Role.assistant greeting)
               FinishReason.stop].
Proof.
  destruct (C3_no_user_greeting req_system_only w0) as [Hg Hrun].
  - repeat (apply Forall_cons_2; [discriminate|]). apply Forall_nil_2.
  - split; [exact Hg|]. apply Hrun. supported_model.
Defined.

(** C4: the endpoint raises HTTP 400, with a detail that quotes the model
    name, exactly for the models outside the supported list; it then builds
    no response and leaves the world as it was.  For a listed model it
    returns a response. *)
Theorem C4_model_validation request w :
  (ChatCompletionRequest.model request ∉ supported_models ->
   create_chat_completion request w
   = (Raise (HTTPException 400
               (lit "Model '" ++ ChatCompletionRequest.model request
                ++ lit "' not found.")), w))
  /\ (ChatCompletionRequest.model request ∈ supported_models ->
      exists resp w', create_chat_completion request w = (Ok resp, w')).
Proof.
  split.
  - apply create_chat_completion_unsupported.
  - intros Hin.
    destruct (create_chat_completion_supported request w Hin) as (c & _ & Hrun).
    eauto.
Qed.

Lemma C4_model_validation_witness :
  create_chat_completion req_unknown_model w0
  = (Raise (HTTPException 400 (lit "Model 'gpt-5' not found.")), w0)
  /\ exists resp w', create_chat_completion req_hi w0 = (Ok resp, w').
Proof.
  split.
  - apply (proj1 (C4_model_validation req_unknown_model w0)).
    intros Hin. apply list_elem_of_In in Hin. vm_compute in Hin.
    intuition discriminate.
  - apply (proj2 (C4_model_validation req_hi w0)). supported_model.
Defined.

(** C6: for a request with a supported model the usage counters are:
    [prompt_tokens] the sum of the lengths of the contents of all request
    messages, [completion_tokens] the length of the reply, and
    [total_tokens] their sum. *)
Theorem C6_usage_counters request w :
  ChatCompletionRequest.model request ∈ supported_models ->
  exists resp w' c,
    create_chat_completion request w = (Ok resp, w')
    /\ ChatChoice.message <$> ChatCompletionResponse.choices resp
       = [ChatMessage.mk Role.assistant c]
    /\ UsageInfo.total_tokens (ChatCompletionResponse.usage resp)
       = UsageInfo.prompt_tokens (ChatCompletionResponse.usage resp)
         + UsageInfo.completion_tokens (ChatCompletionResponse.usage resp)
    /\ UsageInfo.prompt_tokens (ChatCompletionResponse.usage resp)
       = total_content_len (ChatCompletionRequest.messages request)
    /\ UsageInfo.completion_tokens (ChatCompletionResponse.usage resp) = len c.
Proof.
  intros Hin.
  destruct (create_chat_completion_supported request w Hin) as (c & _ & Hrun).
  eexists _, _, c. split; [exact Hrun|]. cbn. repeat split.
Qed.

Lemma C6_usage_counters_witness :
  exists resp w' c,
    create_chat_completion req_system_only w0 = (Ok resp, w')
    /\ ChatChoice.message <$> ChatCompletionResponse.choices resp
       = [ChatMessage.mk Role.assistant c]
    /\ UsageInfo.total_tokens (ChatCompletionResponse.usage resp)
       = UsageInfo.prompt_tokens (ChatCompletionResponse.usage resp)
         + UsageInfo.completion_tokens (ChatCompletionResponse.usage resp)
    /\ UsageInfo.prompt_tokens (ChatCompletionResponse.usage resp)
       = total_content_len (ChatCompletionRequest.messages req_system_only)
    /\ UsageInfo.completion_tokens (ChatCompletionResponse.usage resp) = len c.
Proof.
  apply (C6_usage_counters req_system_only w0). supported_model.
Defined.

(** The counters of a small request, evaluated. *)
Example usage_of_req_system_only :
  (ChatCompletionResponse.usage <$> result_value (fst (create_chat_completion req_system_only w0)))
  = Some (UsageInfo.mk 10 14 24).
Proof. reflexivity. Qed.

Lemma list_models_eq w :
  list_models w
  = (Ok (ModelList.mk (lit "list")
           [ModelInfo.mk (lit "gpt-3.5-turbo") (lit "model")
              (clock w (clock_reads w)) (lit "local-api");
            ModelInfo.mk (lit "gpt-4") (lit "model")
              (clock w (S (clock_reads w))) (lit "local-api");
            ModelInfo.mk (lit "custom-local-model") (lit "model")
              (clock w (S (S (clock_reads w)))) (lit "local-api")]),
     mkWorld (clock w) (S (S (S (clock_reads w)))) (uuid_hex w) (uuid_draws w)
             (log w)).
Proof. reflexivity. Qed.

(** C8: whatever the state of the process, the list-models operation
    returns the three declared identifiers, in order, each with object
    "model", the clock reading of its construction and owner "local-api". *)
Theorem C8_list_models w :
  exists ml w',
    list_models w = (Ok ml, w')
    /\ ModelInfo.id <$> ModelList.data ml
       = [lit "gpt-3.5-turbo"; lit "gpt-4"; lit "custom-local-model"]
    /\ Forall (fun m => ModelInfo.object m = lit "model"
                        /\ ModelInfo.owned_by m = lit "local-api")
              (ModelList.data ml)
    /\ ModelInfo.created <$> ModelList.data ml
       = [clock w (clock_reads w); clock w (S (clock_reads w));
          clock w (S (S (clock_reads w)))]
    /\ ModelList.object ml = lit "list"
    /\ log w' = log w.
Proof.
  rewrite list_models_eq. eexists _, _. split; [reflexivity|].
  cbn [ModelList.data ModelList.object fmap list_fmap ModelInfo.id
       ModelInfo.created ModelInfo.object ModelInfo.owned_by log].
  repeat split. repeat (apply Forall_cons_2; [by split|]). apply Forall_nil_2.
Qed.

(** C10: for a request with a supported model the response has exactly one
    choice, with index 0, role "assistant" and finish reason "stop", whose
    content is the reply of the stub; and that reply is the greeting when
    the last "user" entry of the request has empty content. *)
Theorem C10_single_choice_and_empty_content request w :
  ChatCompletionRequest.model request ∈ supported_models ->
  exists resp w' c,
    create_chat_completion request w = (Ok resp, w')
    /\ fake_llm_call
         (map ChatMessage.model_dump (ChatCompletionRequest.messages request))
       = Ok c
    /\ ChatCompletionResponse.choices resp
       = [ChatChoice.mk 0 (ChatMessage.mk Role.assistant c) FinishReason.stop]
    /\ (forall pre m post,
          ChatCompletionRequest.messages request = pre ++ m :: post ->
          ChatMessage.role m = Role.user ->
          Forall (fun m' => ChatMessage.role m' <> Role.user) post ->
          ChatMessage.content m = [] ->
          c = greeting /\ c <> template (ChatMessage.content m)).
Proof.
  intros Hin.
  destruct (create_chat_completion_supported request w Hin) as (c & Hc & Hrun).
  eexists _, _, c. split; [exact Hrun|]. split; [exact Hc|].
  split; [reflexivity|].
  intros pre m post Hms Hm Hpost He.
  rewrite Hms, (fake_llm_call_last_user pre post m Hm Hpost) in Hc.
  rewrite decide_True in Hc by exact He.
  injection Hc as <-. split; [reflexivity|apply greeting_not_template].
Qed.

Lemma C10_single_choice_and_empty_content_witness :
  exists resp w',
    create_chat_completion req_empty w0 = (Ok resp, w')
    /\ ChatCompletionResponse.choices resp
       = [ChatChoice.mk 0 (ChatMessage.mk Role.assistant greeting)
            FinishReason.stop].
Proof.
  destruct (C10_single_choice_and_empty_content req_empty w0)
    as (resp & w' & c & Hrun & _ & Hchoices & Hempty).
  - supported_model.
  - exists resp, w'. split; [exact Hrun|].
    destruct (Hempty [] (ChatMessage.mk Role.user []) []
                eq_refl eq_refl (Forall_nil_2 _) eq_refl) as [-> _].
    exact Hchoices.
Defined.

(** ** The routes *)

(** Every path the application serves starts with the prefix of the
    router. *)
Lemma resolve_under_prefix m path e :
  resolve app_routes m path = Some e ->
  exists rest, path = lit "/v1" ++ rest.
Proof.
  unfold app_routes, router, add_api_route.
  cbn [routes prefix app resolve route_method route_path route_endpoint].
  repeat (case_decide as Hr;
          [destruct Hr as [_ <-]; intros _; eexists; reflexivity|clear Hr]).
  discriminate.
Qed.

(** C9, evaluated: the redirect function answers 307 to "/v1/models", but
    it is registered under the router's prefix, so it is GET /v1/model that
    reaches it; GET /model matches no route. *)
Theorem C9_redirect_route :
  resolve app_routes GET (lit "/model") = None
  /\ resolve app_routes GET (lit "/v1/model") = Some ep_redirect_model_api
  /\ redirect_model_api = mkRedirect 307 (lit "/v1/models")
  /\ resolve app_routes GET (redirect_url redirect_model_api) = Some ep_list_models.
Proof. repeat split. Qed.

(** ** The agent loop *)

Lemma last_item_ok {A} (l : list A) x : last l = Some x -> last_item l = Ok x.
Proof. unfold last_item. by intros ->. Qed.

Lemma fold_left_snoc {A B} (f : A -> B) (l : list A) (acc : list B) :
  fold_left (fun acc p => acc ++ [f p]) l acc = acc ++ map f l.
Proof.
  revert acc. induction l as [|x l IH]; intros acc; cbn [fold_left map].
  - by rewrite app_nil_r.
  - by rewrite IH, <- app_assoc.
Qed.

Lemma map_zip_pairs {A B C} (f : A -> B -> C) (l : list A) (k : list B) :
  map (fun p => f (fst p) (snd p)) (zip l k) = zip_with f l k.
Proof.
  revert k. induction l as [|x l IH]; intros [|y k]; try reflexivity.
  cbn [zip_with map fst snd]. f_equal. apply IH.
Qed.

Section AgentProperties.

Variable END : str.
Variable Value : Type.
Variable model_invoke : list BaseMessage -> result BaseMessage.
Variable batch : list ToolCall.t -> list (result Value).
Variable to_str : Value -> str.
Variable repr : PyExc -> str.

Local Abbreviation tools_node' := (tools_node Value batch to_str repr).
Local Abbreviation tool_message' := (tool_message Value to_str repr).
Local Abbreviation should_continue' := (should_continue END).
Local Abbreviation path_map' := (path_map END).
Local Abbreviation workflow' := (workflow END Value model_invoke batch to_str repr).
Local Abbreviation next_node' := (next_node END).
Local Abbreviation app_stream' := (app_stream END Value model_invoke batch to_str repr).
Local Abbreviation app_resume' := (app_resume END Value model_invoke batch to_str repr).

(** *** The tool step *)

(** The loop of [tools_node'] pairs the outputs with the calls in order. *)
Lemma tools_node_zip state c calls :
  last (messages state) = Some (AIMessage c calls) ->
  tools_node' state = Ok (zip_with tool_message' (batch calls) calls).
Proof.
  intros Hlast. unfold tools_node.
  rewrite (last_item_ok _ _ Hlast). cbn [rbind get_tool_calls].
  by rewrite fold_left_snoc, app_nil_l, map_zip_pairs.
Qed.

Lemma tools_node_lookup state c calls tms k call :
  last (messages state) = Some (AIMessage c calls) ->
  length (batch calls) = length calls ->
  tools_node' state = Ok tms ->
  calls !! k = Some call ->
  exists out, batch calls !! k = Some out /\ tms !! k = Some (tool_message' out call).
Proof.
  intros Hlast Hlen Hrun Hk.
  rewrite (tools_node_zip _ _ _ Hlast) in Hrun. injection Hrun as <-.
  destruct (lookup_lt_is_Some_2 (batch calls) k) as [out Hout].
  { rewrite Hlen. by eapply lookup_lt_Some. }
  exists out. split; [exact Hout|].
  rewrite lookup_zip_with, Hout, Hk. reflexivity.
Qed.

Lemma tool_message_id out call :
  tool_call_id_of (tool_message' out call) = Some (ToolCall.id call).
Proof. by destruct out. Qed.

(** *** Routing *)

Lemma should_continue_final state c :
  last (messages state) = Some (AIMessage c []) ->
  should_continue' state = Ok END.
Proof.
  intros Hlast. unfold should_continue.
  by rewrite (last_item_ok _ _ Hlast).
Qed.

Lemma should_continue_calls state c tc tcs :
  last (messages state) = Some (AIMessage c (tc :: tcs)) ->
  should_continue' state = Ok (lit "tools").
Proof.
  intros Hlast. unfold should_continue.
  by rewrite (last_item_ok _ _ Hlast).
Qed.

Lemma workflow_branch_agent :
  branches workflow' !! lit "agent" = Some (should_continue', path_map').
Proof. unfold workflow. cbn. by rewrite lookup_insert_eq. Qed.

Lemma workflow_edge_tools :
  branches workflow' !! lit "tools" = None
  /\ edges workflow' !! lit "tools" = Some (lit "agent").
Proof.
  unfold workflow. cbn. split.
  - rewrite lookup_insert_ne by discriminate. apply lookup_empty.
  - by rewrite lookup_insert_eq.
Qed.

Lemma path_map_tools : path_map' !! lit "tools" = Some (lit "tools").
Proof.
  unfold path_map.
  rewrite lookup_insert_ne by discriminate. by rewrite lookup_singleton_eq.
Qed.

(** The dict has the keys "tools" and "END" and no other. *)
Lemma path_map_lookup k :
  path_map' !! k
  = if decide (k = lit "END") then Some END
    else if decide (k = lit "tools") then Some (lit "tools")
    else None.
Proof.
  unfold path_map. rewrite lookup_insert.
  destruct (decide (lit "END" = k)) as [<-|Hk].
  - by rewrite decide_True.
  - rewrite decide_False by congruence.
    rewrite lookup_singleton.
    destruct (decide (lit "tools" = k)) as [<-|Hk'].
    + by rewrite decide_True.
    + by rewrite decide_False by congruence.
Qed.

(** After the agent step, an assistant message that requests tools sends
    control to the tool step. *)
Lemma next_node_agent_calls state c tc tcs :
  last (messages state) = Some (AIMessage c (tc :: tcs)) ->
  next_node' workflow' (lit "agent") state = Ok (lit "tools").
Proof.
  intros Hlast. unfold next_node.
  rewrite workflow_branch_agent, (should_continue_calls _ _ _ _ Hlast).
  cbn [rbind]. unfold getitem. by rewrite path_map_tools.
Qed.

(** After the tool step control goes back to the agent step. *)
Lemma next_node_tools state :
  next_node' workflow' (lit "tools") state = Ok (lit "agent").
Proof.
  unfold next_node.
  destruct workflow_edge_tools as [-> ->]. reflexivity.
Qed.

(** After the agent step, an assistant message without tool calls makes the
    routing function return [END], which is then looked up in the dict. *)
Lemma next_node_agent_final state c :
  last (messages state) = Some (AIMessage c []) ->
  next_node' workflow' (lit "agent") state = getitem path_map' END.
Proof.
  intros Hlast. unfold next_node.
  by rewrite workflow_branch_agent, (should_continue_final _ _ Hlast).
Qed.

(** That lookup yields the terminal marker only if the marker is one of the
    two keys of the dict; for any other marker it is a [KeyError]. *)
Lemma getitem_path_map_END :
  END <> lit "END" -> END <> lit "tools" ->
  getitem path_map' END = Raise (KeyError END).
Proof.
  intros H1 H2. unfold getitem.
  by rewrite path_map_lookup, !decide_False.
Qed.

Lemma getitem_path_map_END_literal :
  END = lit "END" -> getitem path_map' END = Ok END.
Proof.
  intros H. unfold getitem. by rewrite path_map_lookup, decide_True.
Qed.

(** *** Runs *)

Hypothesis END_not_a_node : END <> lit "agent" /\ END <> lit "tools".

Lemma workflow_node_agent :
  nodes workflow' !! lit "agent"
  = Some (agent_node model_invoke).
Proof.
  unfold workflow. cbn.
  rewrite lookup_insert_ne by discriminate. by rewrite lookup_insert_eq.
Qed.

Lemma workflow_node_tools :
  nodes workflow' !! lit "tools" = Some tools_node'.
Proof. unfold workflow. cbn. by rewrite lookup_insert_eq. Qed.

(** A run whose model asks for tools is suspended before the tool step,
    with the assistant message appended. *)
Lemma app_stream_interrupted fuel initial c tc tcs :
  model_invoke (messages initial) = Ok (AIMessage c (tc :: tcs)) ->
  app_stream' (S fuel) initial
  = Interrupted (lit "tools") (apply_update initial [AIMessage c (tc :: tcs)]).
Proof.
  intros Hm. destruct END_not_a_node as [Ha Ht].
  unfold app_stream. cbn [entry_point workflow
    add_edge add_conditional_edges set_entry_point].
  cbn [run]. rewrite decide_False by congruence. cbn [negb andb].
  rewrite bool_decide_eq_false_2.
  2:{ intros Hin. apply list_elem_of_singleton in Hin. discriminate Hin. }
  unfold step. rewrite workflow_node_agent. unfold agent_node.
  rewrite Hm. cbn [rbind].
  rewrite (next_node_agent_calls _ c tc tcs).
  2:{ cbn. by rewrite last_snoc. }
  cbn [rbind]. destruct fuel; cbn [run].
  all: rewrite decide_False by congruence; cbn [negb andb].
  all: rewrite bool_decide_eq_true_2; [reflexivity|apply list_elem_of_singleton; reflexivity].
Qed.

(** A run whose model gives a final answer: the lookup of the marker in the
    dict decides between a clean end and a [KeyError]. *)
Lemma app_stream_final_keyerror fuel initial c :
  model_invoke (messages initial) = Ok (AIMessage c []) ->
  END <> lit "END" ->
  app_stream' (S fuel) initial = Crashed (KeyError END) initial.
Proof.
  intros Hm HE. destruct END_not_a_node as [Ha Ht].
  unfold app_stream. cbn [entry_point workflow
    add_edge add_conditional_edges set_entry_point].
  cbn [run]. rewrite decide_False by congruence. cbn [negb andb].
  rewrite bool_decide_eq_false_2.
  2:{ intros Hin. apply list_elem_of_singleton in Hin. discriminate Hin. }
  unfold step. rewrite workflow_node_agent. unfold agent_node.
  rewrite Hm. cbn [rbind].
  rewrite (next_node_agent_final _ c).
  2:{ cbn. by rewrite last_snoc. }
  by rewrite getitem_path_map_END.
Qed.

Lemma app_stream_final_finished fuel initial c :
  model_invoke (messages initial) = Ok (AIMessage c []) ->
  END = lit "END" ->
  app_stream' (S fuel) initial = Finished (apply_update initial [AIMessage c []]).
Proof.
  intros Hm HE. destruct END_not_a_node as [Ha Ht].
  unfold app_stream. cbn [entry_point workflow
    add_edge add_conditional_edges set_entry_point].
  cbn [run]. rewrite decide_False by congruence. cbn [negb andb].
  rewrite bool_decide_eq_false_2.
  2:{ intros Hin. apply list_elem_of_singleton in Hin. discriminate Hin. }
  unfold step. rewrite workflow_node_agent. unfold agent_node.
  rewrite Hm. cbn [rbind].
  rewrite (next_node_agent_final _ c).
  2:{ cbn. by rewrite last_snoc. }
  rewrite getitem_path_map_END_literal by exact HE. cbn [rbind].
  destruct fuel; cbn [run]; by rewrite decide_True.
Qed.

(** Resuming a run suspended before the tool step: the tool messages are
    appended and the agent step is entered again. *)
Lemma app_resume_tools fuel state c calls :
  last (messages state) = Some (AIMessage c calls) ->
  app_resume' (S fuel) (lit "tools") state
  = run END fuel workflow' [lit "tools"] false (lit "agent")
      (apply_update state (zip_with tool_message' (batch calls) calls)).
Proof.
  intros Hlast. destruct END_not_a_node as [Ha Ht].
  unfold app_resume. cbn [run]. rewrite decide_False by congruence.
  cbn [negb andb]. unfold step.
  rewrite workflow_node_tools, (tools_node_zip _ _ _ Hlast). cbn [rbind].
  by rewrite next_node_tools.
Qed.

(** *** The claims on the tool step *)

(** C5: when the executor returns one output per call, every call whose
    output is an exception gets one tool message, at
    the position of the call, whose content is "Error: " followed by the
    representation of the exception and whose [tool_call_id] is the id of
    the call; and every call, whatever the outputs of the others, gets its
    tool message: there are as many messages as calls. *)
Theorem C5_tool_errors_boxed state c calls :
  last (messages state) = Some (AIMessage c calls) ->
  length (batch calls) = length calls ->
  exists tms,
    tools_node' state = Ok tms
    /\ length tms = length calls
    /\ (forall k call e,
          calls !! k = Some call ->
          batch calls !! k = Some (Raise e) ->
          tms !! k = Some (ToolMessage (lit "Error: " ++ repr e) (ToolCall.id call)))
    /\ (forall j call,
          calls !! j = Some call ->
          exists content, tms !! j = Some (ToolMessage content (ToolCall.id call))).
Proof.
  intros Hlast Hlen.
  pose proof (tools_node_zip _ _ _ Hlast) as Hrun.
  eexists. split; [exact Hrun|]. split; [|split].
  - rewrite length_zip_with. lia.
  - intros k call e Hk He.
    destruct (tools_node_lookup _ _ _ _ k call Hlast Hlen Hrun Hk)
      as (out & Hout & Htm).
    rewrite He in Hout. injection Hout as <-. exact Htm.
  - intros j call Hj.
    destruct (tools_node_lookup _ _ _ _ j call Hlast Hlen Hrun Hj)
      as (out & _ & Htm).
    rewrite Htm. destruct out; cbn; eauto.
Qed.

(** C7: when the executor returns one output per call, the tool messages
    are appended to the conversation in the order of the calls: the k-th
    appended message carries the id of the k-th call. *)
Theorem C7_tool_results_in_call_order state c calls :
  last (messages state) = Some (AIMessage c calls) ->
  length (batch calls) = length calls ->
  exists tms,
    tools_node' state = Ok tms
    /\ messages (apply_update state tms) = messages state ++ tms
    /\ tool_call_id_of <$> tms = Some <$> (ToolCall.id <$> calls)
    /\ (forall k call,
          calls !! k = Some call ->
          exists content,
            messages (apply_update state tms) !! (length (messages state) + k)%nat
            = Some (ToolMessage content (ToolCall.id call))).
Proof.
  intros Hlast Hlen.
  pose proof (tools_node_zip _ _ _ Hlast) as Hrun.
  eexists. split; [exact Hrun|]. split; [reflexivity|]. split.
  - apply list_eq. intros k. rewrite !list_lookup_fmap, lookup_zip_with.
    destruct (calls !! k) as [call|] eqn:Hk.
    + destruct (lookup_lt_is_Some_2 (batch calls) k) as [out ->].
      { rewrite Hlen. by eapply lookup_lt_Some. }
      cbn. by rewrite tool_message_id.
    + by destruct (batch calls !! k).
  - intros k call Hk. cbn [apply_update messages].
    rewrite lookup_app_r by lia.
    replace (length (messages state) + k - length (messages state))%nat with k by lia.
    destruct (tools_node_lookup _ _ _ _ k call Hlast Hlen Hrun Hk)
      as (out & _ & Htm).
    rewrite Htm. destruct out; cbn; eauto.
Qed.

End AgentProperties.

(** The outputs of the demo executor, evaluated. *)
Example demo_tools_node :
  tools_node (list N) demo_batch id demo_repr state_tool_request
  = Ok [ToolMessage (lit "Error: RuntimeError('boom')") (lit "call_1");
        ToolMessage (lit "12:00") (lit "call_2")].
Proof. vm_compute. reflexivity. Qed.

Lemma C5_tool_errors_boxed_witness :
  exists tms,
    tools_node (list N) demo_batch id demo_repr state_tool_request = Ok tms
    /\ length tms = length demo_calls
    /\ (forall k call e,
          demo_calls !! k = Some call ->
          demo_batch demo_calls !! k = Some (Raise e) ->
          tms !! k
          = Some (ToolMessage (lit "Error: " ++ demo_repr e) (ToolCall.id call)))
    /\ (forall j call,
          demo_calls !! j = Some call ->
          exists content, tms !! j = Some (ToolMessage content (ToolCall.id call))).
Proof.
  apply (C5_tool_errors_boxed (list N) demo_batch id demo_repr
           state_tool_request [] demo_calls); reflexivity.
Defined.

Lemma C7_tool_results_in_call_order_witness :
  exists tms,
    tools_node (list N) demo_batch id demo_repr state_tool_request = Ok tms
    /\ messages (apply_update state_tool_request tms)
       = messages state_tool_request ++ tms
    /\ tool_call_id_of <$> tms = Some <$> (ToolCall.id <$> demo_calls)
    /\ (forall k call,
          demo_calls !! k = Some call ->
          exists content,
            messages (apply_update state_tool_request tms)
              !! (length (messages state_tool_request) + k)%nat
            = Some (ToolMessage content (ToolCall.id call))).
Proof.
  apply (C7_tool_results_in_call_order (list N) demo_batch id demo_repr
           state_tool_request [] demo_calls); reflexivity.
Defined.

(** ** The routing of the compiled graph, with the library's marker *)

Lemma langgraph_END_not_a_key :
  langgraph_END <> lit "END" /\ langgraph_END <> lit "tools"
  /\ langgraph_END <> lit "agent".
Proof. repeat split; discriminate. Qed.

(** C1, on the code: with [END] the library's "__end__", an assistant
    message without tool calls makes [should_continue] return the marker,
    which is not a key of the dict given to [add_conditional_edges] (its keys
    are "tools" and "END"), so routing raises [KeyError] instead of ending
    the run.  An assistant message with tool calls is routed to the tool
    step, and the tool step is followed by the agent step. *)
Theorem C1_routing_after_agent
    (Value : Type) (model_invoke : list BaseMessage -> result BaseMessage)
    (batch : list ToolCall.t -> list (result Value))
    (to_str : Value -> str) (repr : PyExc -> str)
    (state : AgentState) (c : str) (calls : list ToolCall.t) :
  last (messages state) = Some (AIMessage c calls) ->
  let g := workflow langgraph_END Value model_invoke batch to_str repr in
  (calls = [] ->
   should_continue langgraph_END state = Ok langgraph_END
   /\ path_map langgraph_END !! langgraph_END = None
   /\ next_node langgraph_END g (lit "agent") state
      = Raise (KeyError langgraph_END))
  /\ (calls <> [] ->
      next_node langgraph_END g (lit "agent") state = Ok (lit "tools")
      /\ forall state',
           next_node langgraph_END g (lit "tools") state' = Ok (lit "agent")).
Proof.
  intros Hlast g. destruct langgraph_END_not_a_key as (H1 & H2 & _). split.
  - intros ->. split; [by eapply should_continue_final|]. split.
    + rewrite path_map_lookup. by rewrite !decide_False.
    + unfold g. rewrite (next_node_agent_final _ _ _ _ _ _ _ c Hlast).
      by apply getitem_path_map_END.
  - intros Hne. destruct calls as [|tc tcs]; [done|]. split.
    + unfold g. by eapply next_node_agent_calls.
    + intros state'. unfold g. apply next_node_tools.
Qed.

Lemma C1_routing_after_agent_witness :
  next_node langgraph_END
    (workflow langgraph_END (list N) demo_model demo_batch id demo_repr)
    (lit "agent") state_final_answer
  = Raise (KeyError (lit "__end__"))
  /\ next_node langgraph_END
       (workflow langgraph_END (list N) demo_model demo_batch id demo_repr)
       (lit "agent") state_tool_request
     = Ok (lit "tools").
Proof.
  split.
  - apply (C1_routing_after_agent (list N) demo_model demo_batch id demo_repr
             state_final_answer (lit "done") []); reflexivity.
  - apply (C1_routing_after_agent (list N) demo_model demo_batch id demo_repr
             state_tool_request [] demo_calls); [reflexivity|discriminate].
Defined.

(** The whole run on a question the model answers at once: it ends in the
    [KeyError], where a dict keyed by the marker itself would have ended it
    cleanly. *)
Example app_stream_final_answer_crashes :
  app_stream langgraph_END (list N) demo_model demo_batch id demo_repr 8
    state_question
  = Crashed (KeyError (lit "__end__")) state_question.
Proof.
  eapply (app_stream_final_keyerror langgraph_END (list N) demo_model demo_batch
            id demo_repr).
  - split; discriminate.
  - reflexivity.
  - discriminate.
Qed.

Example app_stream_literal_marker_finishes :
  app_stream (lit "END") (list N) demo_model demo_batch id demo_repr 8
    state_question
  = Finished state_final_answer.
Proof.
  change state_final_answer
    with (apply_update state_question [AIMessage (lit "done") []]).
  apply (app_stream_final_finished (lit "END") (list N) demo_model demo_batch
           id demo_repr).
  - split; discriminate.
  - reflexivity.
  - reflexivity.
Qed.

(** * Further properties of the code *)

(** ** [fake_llm_call] on raw message dicts *)

Lemma scan_for_user_skip (l1 l2 : list (gmap (list N) (list N))) :
  Forall other_role l1 -> scan_for_user (l1 ++ l2) = scan_for_user l2.
Proof.
  induction 1 as [|d l1 (r & Hr & Hne) _ IH]; [reflexivity|].
  cbn [app scan_for_user]. unfold getitem at 1. rewrite Hr. cbn [rbind].
  by rewrite decide_False.
Qed.

Lemma rev_snoc_split {A} (pre post : list A) d :
  rev (pre ++ d :: post) = rev post ++ d :: rev pre.
Proof. rewrite rev_app_distr. cbn [rev]. by rewrite <- app_assoc. Qed.

Lemma Forall_rev_other (l : list (gmap (list N) (list N))) :
  Forall other_role l -> Forall other_role (rev l).
Proof.
  intros H. apply Forall_forall. intros x Hx.
  apply (proj1 (Forall_forall _ _) H).
  apply list_elem_of_In, in_rev, list_elem_of_In, Hx.
Qed.

(** X1: the reply is decided by the last dict with role "user" alone: the
    dicts before it are never read (they may even lack their keys), and the
    reply is the greeting if its content is empty and the template applied
    to its content otherwise. *)
Theorem X1_reply_decided_by_last_user
    (pre post : list (gmap (list N) (list N))) d c :
  d !! lit "role" = Some (lit "user") ->
  d !! lit "content" = Some c ->
  Forall other_role post ->
  fake_llm_call (pre ++ d :: post)
  = Ok (if decide (c = []) then greeting else template c).
Proof.
  intros Hr Hc Hpost. unfold fake_llm_call.
  rewrite rev_snoc_split, scan_for_user_skip by by apply Forall_rev_other.
  cbn [scan_for_user]. unfold getitem. rewrite Hr. cbn [rbind].
  rewrite decide_True by reflexivity. rewrite Hc. cbn [rbind].
  by destruct (decide (c = [])).
Qed.

Lemma X1_reply_decided_by_last_user_witness :
  fake_llm_call ([dict_without_role] ++ dict_user_hi :: [])
  = Ok (if decide (lit "hi" = []) then greeting else template (lit "hi")).
Proof.
  apply (X1_reply_decided_by_last_user [dict_without_role] [] dict_user_hi
           (lit "hi")).
  - reflexivity.
  - reflexivity.
  - apply Forall_nil_2.
Defined.

(** X2: scanning from the end, a dict without a "role" key that is met
    before any "user" dict makes [fake_llm_call] raise [KeyError('role')]. *)
Theorem X2_missing_role_raises
    (pre post : list (gmap (list N) (list N))) d :
  d !! lit "role" = None ->
  Forall other_role post ->
  fake_llm_call (pre ++ d :: post) = Raise (KeyError (lit "role")).
Proof.
  intros Hr Hpost. unfold fake_llm_call.
  rewrite rev_snoc_split, scan_for_user_skip by by apply Forall_rev_other.
  cbn [scan_for_user]. unfold getitem. by rewrite Hr.
Qed.

Lemma X2_missing_role_raises_witness :
  fake_llm_call ([dict_user_hi] ++ dict_without_role :: [])
  = Raise (KeyError (lit "role")).
Proof.
  apply (X2_missing_role_raises [dict_user_hi] [] dict_without_role).
  - reflexivity.
  - apply Forall_nil_2.
Defined.

(** X3: when the last dict with role "user" has no "content" key,
    [fake_llm_call] raises [KeyError('content')]. *)
Theorem X3_missing_content_raises
    (pre post : list (gmap (list N) (list N))) d :
  d !! lit "role" = Some (lit "user") ->
  d !! lit "content" = None ->
  Forall other_role post ->
  fake_llm_call (pre ++ d :: post) = Raise (KeyError (lit "content")).
Proof.
  intros Hr Hc Hpost. unfold fake_llm_call.
  rewrite rev_snoc_split, scan_for_user_skip by by apply Forall_rev_other.
  cbn [scan_for_user]. unfold getitem. rewrite Hr. cbn [rbind].
  rewrite decide_True by reflexivity. by rewrite Hc.
Qed.

Lemma X3_missing_content_raises_witness :
  fake_llm_call ([dict_user_hi] ++ dict_user_without_content :: [])
  = Raise (KeyError (lit "content")).
Proof.
  apply (X3_missing_content_raises [dict_user_hi] [] dict_user_without_content).
  - reflexivity.
  - reflexivity.
  - apply Forall_nil_2.
Defined.

(** Whatever the dicts, a reply is the greeting or the template applied to a
    non-empty text. *)
Lemma fake_llm_call_shape (ds : list (gmap (list N) (list N))) c :
  fake_llm_call ds = Ok c ->
  c = greeting \/ exists q, q <> [] /\ c = template q.
Proof.
  unfold fake_llm_call. destruct (scan_for_user (rev ds)) as [q|e];
    cbn [rbind]; [|discriminate].
  destruct (decide (q = [])) as [->|Hq]; intros [= <-]; eauto.
Qed.

Lemma len_greeting : len greeting = 14.
Proof. reflexivity. Qed.

Lemma total_content_len_nonneg ms : 0 <= total_content_len ms.
Proof.
  induction ms as [|m ms IH]; cbn [total_content_len]; unfold len in *; lia.
Qed.

(** ** The chat-completion endpoint *)

(** X4: the reply to a conversation is the reply to its last "user" message
    taken alone: neither the messages before it nor the "system" and
    "assistant" messages after it change the answer. *)
Theorem X4_reply_is_reply_to_last_user (pre post : list ChatMessage.t) m :
  ChatMessage.role m = Role.user ->
  Forall (fun m' => ChatMessage.role m' <> Role.user) post ->
  fake_llm_call (map ChatMessage.model_dump (pre ++ m :: post))
  = fake_llm_call (map ChatMessage.model_dump [m]).
Proof.
  intros Hm Hpost.
  rewrite (fake_llm_call_last_user pre post m Hm Hpost).
  symmetry. apply (fake_llm_call_last_user [] [] m Hm). apply Forall_nil_2.
Qed.

Lemma X4_reply_is_reply_to_last_user_witness :
  fake_llm_call
    (map ChatMessage.model_dump
       ([ChatMessage.mk Role.system (lit "be brief")]
        ++ ChatMessage.mk Role.user (lit "hi")
        :: [ChatMessage.mk Role.assistant (lit "ok")]))
  = fake_llm_call
      (map ChatMessage.model_dump [ChatMessage.mk Role.user (lit "hi")]).
Proof.
  apply (X4_reply_is_reply_to_last_user
           [ChatMessage.mk Role.system (lit "be brief")]
           [ChatMessage.mk Role.assistant (lit "ok")]
           (ChatMessage.mk Role.user (lit "hi"))).
  - reflexivity.
  - apply Forall_cons_2; [discriminate|apply Forall_nil_2].
Defined.

(** X5: the generation parameters are never read: two requests that differ
    only in [temperature] and [max_tokens] get the same result and leave the
    same world. *)
Theorem X5_generation_parameters_ignored (r1 r2 : ChatCompletionRequest.t) w :
  ChatCompletionRequest.model r1 = ChatCompletionRequest.model r2 ->
  ChatCompletionRequest.messages r1 = ChatCompletionRequest.messages r2 ->
  create_chat_completion r1 w = create_chat_completion r2 w.
Proof.
  destruct r1 as [model1 ms1 t1 k1], r2 as [model2 ms2 t2 k2].
  cbn [ChatCompletionRequest.model ChatCompletionRequest.messages].
  intros -> ->. reflexivity.
Qed.

Lemma X5_generation_parameters_ignored_witness :
  create_chat_completion req_hi w0
  = create_chat_completion
      (ChatCompletionRequest.mk (lit "gpt-4")
         [ChatMessage.mk Role.user (lit "hi")] (Some 4611686018427387904%N)
         (Some 16)) w0.
Proof.
  apply (X5_generation_parameters_ignored req_hi
           (ChatCompletionRequest.mk (lit "gpt-4")
              [ChatMessage.mk Role.user (lit "hi")]
              (Some 4611686018427387904%N) (Some 16)) w0); reflexivity.
Defined.

(** X6: in every response [prompt_tokens] is non-negative and
    [completion_tokens] is 14, the length of the greeting, or at least 20, a
    template around a non-empty text; so [total_tokens] is at least 14. *)
Theorem X6_usage_bounds request w :
  ChatCompletionRequest.model request ∈ supported_models ->
  exists resp w',
    create_chat_completion request w = (Ok resp, w')
    /\ 0 <= UsageInfo.prompt_tokens (ChatCompletionResponse.usage resp)
    /\ (UsageInfo.completion_tokens (ChatCompletionResponse.usage resp) = 14
        \/ 20 <= UsageInfo.completion_tokens (ChatCompletionResponse.usage resp))
    /\ 14 <= UsageInfo.total_tokens (ChatCompletionResponse.usage resp).
Proof.
  intros Hin.
  destruct (create_chat_completion_supported request w Hin) as (c & Hc & Hrun).
  eexists _, _. split; [exact Hrun|].
  cbn [response_of ChatCompletionResponse.usage UsageInfo.prompt_tokens
       UsageInfo.completion_tokens UsageInfo.total_tokens].
  pose proof (total_content_len_nonneg (ChatCompletionRequest.messages request)).
  assert (len c = 14 \/ 20 <= len c) as Hlen.
  { destruct (fake_llm_call_shape _ _ Hc) as [->|(q & Hq & ->)].
    - left. apply len_greeting.
    - right. rewrite template_length. destruct q; [done|].
      unfold len. cbn [length]. lia. }
  lia.
Qed.

Lemma X6_usage_bounds_witness :
  exists resp w',
    create_chat_completion req_hi w0 = (Ok resp, w')
    /\ 0 <= UsageInfo.prompt_tokens (ChatCompletionResponse.usage resp)
    /\ (UsageInfo.completion_tokens (ChatCompletionResponse.usage resp) = 14
        \/ 20 <= UsageInfo.completion_tokens (ChatCompletionResponse.usage resp))
    /\ 14 <= UsageInfo.total_tokens (ChatCompletionResponse.usage resp).
Proof. apply (X6_usage_bounds req_hi w0). supported_model. Defined.

(** X7: a successful completion draws one UUID, reads the clock once and
    logs one record, the response it returns; the response has id
    "chatcmpl-" followed by the UUID, object "chat.completion", the clock
    reading as [created] and the model name of the request. *)
Theorem X7_completion_effects request w :
  ChatCompletionRequest.model request ∈ supported_models ->
  exists resp w',
    create_chat_completion request w = (Ok resp, w')
    /\ log w' = log w ++ [resp]
    /\ clock_reads w' = S (clock_reads w)
    /\ uuid_draws w' = S (uuid_draws w)
    /\ ChatCompletionResponse.id resp = lit "chatcmpl-" ++ uuid_hex w (uuid_draws w)
    /\ ChatCompletionResponse.object resp = lit "chat.completion"
    /\ ChatCompletionResponse.created resp = clock w (clock_reads w)
    /\ ChatCompletionResponse.model resp = ChatCompletionRequest.model request.
Proof.
  intros Hin.
  destruct (create_chat_completion_supported request w Hin) as (c & _ & Hrun).
  eexists _, _. split; [exact Hrun|]. repeat split.
Qed.

Lemma X7_completion_effects_witness :
  exists resp w',
    create_chat_completion req_hi w0 = (Ok resp, w')
    /\ log w' = log w0 ++ [resp]
    /\ clock_reads w' = S (clock_reads w0)
    /\ uuid_draws w' = S (uuid_draws w0)
    /\ ChatCompletionResponse.id resp
       = lit "chatcmpl-" ++ uuid_hex w0 (uuid_draws w0)
    /\ ChatCompletionResponse.object resp = lit "chat.completion"
    /\ ChatCompletionResponse.created resp = clock w0 (clock_reads w0)
    /\ ChatCompletionResponse.model resp = ChatCompletionRequest.model req_hi.
Proof. apply (X7_completion_effects req_hi w0). supported_model. Defined.

(** X8: the two endpoints agree on the models: a request is answered with a
    completion exactly when its model is one of the identifiers that
    [list_models] returns. *)
Theorem X8_listed_models_are_the_accepted_ones request w1 w2 :
  (exists ml w', list_models w1 = (Ok ml, w')
                 /\ ChatCompletionRequest.model request
                    ∈ (ModelInfo.id <$> ModelList.data ml))
  <-> (exists resp w', create_chat_completion request w2 = (Ok resp, w')).
Proof.
  rewrite list_models_eq. split.
  - intros (ml & w' & [= <- _] & Hin).
    destruct (create_chat_completion_supported request w2 Hin) as (c & _ & Hrun).
    eauto.
  - intros (resp & w' & Hrun).
    eexists _, _. split; [reflexivity|].
    destruct (decide (ChatCompletionRequest.model request ∈ supported_models))
      as [Hin|Hout]; [exact Hin|].
    rewrite (create_chat_completion_unsupported request w2 Hout) in Hrun.
    discriminate Hrun.
Qed.

(** ** The routes *)


Lemma X8_listed_models_are_the_accepted_ones_witness :
  exists resp w', create_chat_completion req_hi w0 = (Ok resp, w').
Proof.
  apply (proj1 (X8_listed_models_are_the_accepted_ones req_hi w0 w0)).
  eexists _, _. split; [apply list_models_eq|].
  apply list_elem_of_further, list_elem_of_here.
Defined.


(** ** The nodes of the agent loop *)

Lemma zip_with_ids {Value} (to_str : Value -> str) (repr : PyExc -> str)
    (outs : list (result Value)) (calls : list ToolCall.t) :
  tool_call_id_of <$> zip_with (tool_message Value to_str repr) outs calls
  = Some <$> (ToolCall.id <$> take (length outs) calls).
Proof.
  revert calls. induction outs as [|o outs IH]; intros [|tc calls];
    try reflexivity.
  cbn [zip_with fmap list_fmap length take].
  rewrite tool_message_id. f_equal. apply IH.
Qed.

Lemma step_appends END g node state next state' :
  step END g node state = Ok (next, state') ->
  exists update, state' = apply_update state update.
Proof.
  unfold step. destruct (nodes g !! node) as [f|]; [|discriminate].
  destruct (f state) as [update|e]; cbn [rbind]; [|discriminate].
  destruct (next_node END g node (apply_update state update));
    cbn [rbind]; [|discriminate].
  intros [= <- <-]. eauto.
Qed.

Section AgentFurther.

Variable END : str.
Variable Value : Type.
Variable model_invoke : list BaseMessage -> result BaseMessage.
Variable batch : list ToolCall.t -> list (result Value).
Variable to_str : Value -> str.
Variable repr : PyExc -> str.

Local Abbreviation tools_node' := (tools_node Value batch to_str repr).
Local Abbreviation tool_message' := (tool_message Value to_str repr).
Local Abbreviation workflow' := (workflow END Value model_invoke batch to_str repr).
Local Abbreviation app_stream' := (app_stream END Value model_invoke batch to_str repr).
Local Abbreviation app_resume' := (app_resume END Value model_invoke batch to_str repr).

(** X10: [should_continue] raises [IndexError] on an empty conversation and
    otherwise never raises: it answers "tools" when the last message is an
    assistant message with at least one tool call, and [END] for every other
    last message, a human or tool message included. *)
Theorem X10_should_continue_cases :
  should_continue END (mkState []) = Raise IndexError
  /\ forall msgs m,
       should_continue END (mkState (msgs ++ [m]))
       = Ok (match m with
             | AIMessage _ (_ :: _) => lit "tools"
             | _ => END
             end).
Proof.
  split; [reflexivity|]. intros msgs m.
  unfold should_continue, last_item. cbn [messages]. rewrite last_snoc.
  cbn [rbind]. by destruct m as [c|c [|tc tcs]|c i].
Qed.

(** X11: [tools_node] has no such guard: it raises [IndexError] on an empty
    conversation and [AttributeError] when the last message is a human or a
    tool message, without running any tool. *)
Theorem X11_tools_node_errors :
  tools_node' (mkState []) = Raise IndexError
  /\ forall msgs c i,
       tools_node' (mkState (msgs ++ [HumanMessage c]))
       = Raise (AttributeError (lit "tool_calls"))
       /\ tools_node' (mkState (msgs ++ [ToolMessage c i]))
          = Raise (AttributeError (lit "tool_calls")).
Proof.
  split; [reflexivity|]. intros msgs c i.
  unfold tools_node, last_item. cbn [messages]. by rewrite !last_snoc.
Qed.

(** X12: the loop of [tools_node] runs over [zip(tool_outputs, tool_calls)],
    so it stops at the shorter of the two: there are as many tool messages
    as the smaller of the number of outputs and the number of calls, and
    their ids are those of the first calls, in order.  With no tool call
    the update is empty. *)
Theorem X12_tools_node_zip_truncates state c calls :
  last (messages state) = Some (AIMessage c calls) ->
  exists tms,
    tools_node' state = Ok tms
    /\ length tms = (length (batch calls) `min` length calls)%nat
    /\ tool_call_id_of <$> tms
       = Some <$> (ToolCall.id <$> take (length (batch calls)) calls).
Proof.
  intros Hlast. eexists. split; [by apply tools_node_zip with (c := c)|].
  split; [apply length_zip_with|apply zip_with_ids].
Qed.

(** X13: a run never removes or rewrites a message: whatever the graph, the
    node it starts at and the way it ends, the conversation it started with
    is a prefix of the conversation of its outcome. *)
Theorem X13_run_append_only fuel g interrupt_before resumed node state :
  messages state
  `prefix_of`
  messages (outcome_state (run END fuel g interrupt_before resumed node state)).
Proof.
  revert resumed node state.
  induction fuel as [|fuel IH]; intros resumed node state; cbn [run].
  - destruct (decide (node = END)); [done|].
    by destruct (negb resumed && bool_decide (node ∈ interrupt_before)).
  - destruct (decide (node = END)); [done|].
    destruct (negb resumed && bool_decide (node ∈ interrupt_before)); [done|].
    destruct (step END g node state) as [[next state']|e] eqn:Hstep; [|done].
    destruct (step_appends _ _ _ _ _ _ Hstep) as [update ->].
    etrans; [|apply IH]. cbn [apply_update messages]. by apply prefix_app_r.
Qed.

Lemma app_stream_run fuel initial :
  app_stream' fuel initial
  = run END fuel workflow' [lit "tools"] false (lit "agent") initial.
Proof. reflexivity. Qed.

Lemma agent_not_interrupted :
  bool_decide (lit "agent" ∈ [lit "tools"]) = false.
Proof.
  apply bool_decide_eq_false_2. intros Hin.
  apply list_elem_of_singleton in Hin. discriminate Hin.
Qed.

(** X14: a failure of the model call is fatal: the run ends with the
    exception the model raised, and the conversation is left as it was. *)
Theorem X14_model_failure_is_fatal fuel initial e :
  END <> lit "agent" ->
  model_invoke (messages initial) = Raise e ->
  app_stream' (S fuel) initial = Crashed e initial.
Proof.
  intros Ha Hm. rewrite app_stream_run. cbn [run].
  rewrite decide_False by congruence. cbn [negb andb].
  rewrite agent_not_interrupted. unfold step.
  rewrite workflow_node_agent. unfold agent_node. by rewrite Hm.
Qed.

(** X15: when the model asks for tools, the run is suspended before the
    tool step: the outcome holds the conversation with the assistant message
    appended and no tool message, whatever the tool executor is. *)
Theorem X15_suspended_before_tools fuel initial c tc tcs :
  END <> lit "agent" /\ END <> lit "tools" ->
  model_invoke (messages initial) = Ok (AIMessage c (tc :: tcs)) ->
  app_stream' (S fuel) initial
  = Interrupted (lit "tools") (apply_update initial [AIMessage c (tc :: tcs)]).
Proof. intros HE Hm. by apply app_stream_interrupted. Qed.

(** X16: resuming a suspended run executes the tool step once and then the
    agent step on the conversation extended by the tool messages; when the
    model asks for tools again the run is suspended again, its conversation
    being the old one, the tool messages and the new assistant message. *)
Theorem X16_resume_runs_tools_then_agent fuel state c calls c2 tc tcs :
  END <> lit "agent" /\ END <> lit "tools" ->
  last (messages state) = Some (AIMessage c calls) ->
  model_invoke
    (messages state ++ zip_with tool_message' (batch calls) calls)
  = Ok (AIMessage c2 (tc :: tcs)) ->
  app_resume' (S (S fuel)) (lit "tools") state
  = Interrupted (lit "tools")
      (mkState (messages state
                ++ zip_with tool_message' (batch calls) calls
                ++ [AIMessage c2 (tc :: tcs)])).
Proof.
  intros HE Hlast Hm.
  rewrite (app_resume_tools END Value model_invoke batch to_str repr HE
             _ _ _ _ Hlast).
  rewrite <- app_stream_run.
  rewrite (app_stream_interrupted END Value model_invoke batch to_str repr HE
             fuel (apply_update state (zip_with tool_message' (batch calls) calls))
             c2 tc tcs Hm).
  unfold apply_update. cbn [messages]. by rewrite <- app_assoc.
Qed.

End AgentFurther.

Lemma X12_tools_node_zip_truncates_witness :
  exists tms,
    tools_node (list N) (fun _ => [Ok (lit "only one")]) id demo_repr
      state_tool_request = Ok tms
    /\ length tms = 1%nat
    /\ tool_call_id_of <$> tms = [Some (lit "call_1")].
Proof.
  apply (X12_tools_node_zip_truncates (list N) (fun _ => [Ok (lit "only one")])
           id demo_repr state_tool_request [] demo_calls).
  reflexivity.
Defined.

Lemma X14_model_failure_is_fatal_witness :
  app_stream langgraph_END (list N) demo_model_down demo_batch id demo_repr 3
    state_question
  = Crashed (ToolError (lit "ConnectionError()")) state_question.
Proof.
  apply (X14_model_failure_is_fatal langgraph_END (list N) demo_model_down
           demo_batch id demo_repr 2 state_question).
  - discriminate.
  - reflexivity.
Defined.

Lemma X15_suspended_before_tools_witness :
  app_stream langgraph_END (list N) demo_model_tools demo_batch id demo_repr 3
    state_question
  = Interrupted (lit "tools") state_tool_request.
Proof.
  apply (X15_suspended_before_tools langgraph_END (list N) demo_model_tools
           demo_batch id demo_repr 2 state_question []).
  - split; discriminate.
  - reflexivity.
Defined.

Lemma X16_resume_runs_tools_then_agent_witness :
  app_resume langgraph_END (list N) demo_model_tools demo_batch id demo_repr 4
    (lit "tools") state_tool_request
  = Interrupted (lit "tools")
      (mkState
         [HumanMessage (lit "hi"); AIMessage [] demo_calls;
          ToolMessage (lit "Error: RuntimeError('boom')") (lit "call_1");
          ToolMessage (lit "12:00") (lit "call_2");
          AIMessage [] demo_calls]).
Proof.
  apply (X16_resume_runs_tools_then_agent langgraph_END (list N)
           demo_model_tools demo_batch id demo_repr 2 state_tool_request []
           demo_calls []).
  - split; discriminate.
  - reflexivity.
  - reflexivity.
Defined.

(** ** Runs with the library's marker *)

Lemma next_after_agent_langgraph Value model_invoke batch to_str repr state :
  next_node langgraph_END
    (workflow langgraph_END Value model_invoke batch to_str repr)
    (lit "agent") state = Ok (lit "tools")
  \/ exists e,
       next_node langgraph_END
         (workflow langgraph_END Value model_invoke batch to_str repr)
         (lit "agent") state = Raise e.
Proof.
  destruct langgraph_END_not_a_key as (H1 & H2 & _).
  unfold next_node. rewrite workflow_branch_agent.
  unfold should_continue, last_item.
  destruct (last (messages state)) as [m|]; cbn [rbind]; [|eauto].
  destruct m as [c|c [|tc tcs]|c i]; cbn [rbind hasattr_tool_calls
    get_tool_calls truthy].
  - right. rewrite getitem_path_map_END by assumption. eauto.
  - right. rewrite getitem_path_map_END by assumption. eauto.
  - left. unfold getitem. by rewrite path_map_tools.
  - right. rewrite getitem_path_map_END by assumption. eauto.
Qed.

Lemma run_never_finished Value model_invoke batch to_str repr
    fuel resumed node state state' :
  node = lit "agent" \/ node = lit "tools" ->
  run langgraph_END fuel
    (workflow langgraph_END Value model_invoke batch to_str repr)
    [lit "tools"] resumed node state
  <> Finished state'.
Proof.
  revert resumed node state.
  induction fuel as [|fuel IH]; intros resumed node state Hnode; cbn [run].
  - rewrite decide_False by (destruct Hnode as [->| ->]; discriminate).
    by destruct (negb resumed && bool_decide (node ∈ [lit "tools"])).
  - rewrite decide_False by (destruct Hnode as [->| ->]; discriminate).
    destruct (negb resumed && bool_decide (node ∈ [lit "tools"])); [done|].
    destruct (step _ _ _ _) as [[next state'']|e] eqn:Hstep; [|done].
    apply IH. unfold step in Hstep. destruct Hnode as [->| ->].
    + rewrite workflow_node_agent in Hstep.
      destruct (agent_node model_invoke state) as [update|e];
        cbn [rbind] in Hstep; [|discriminate].
      destruct (next_after_agent_langgraph Value model_invoke batch to_str repr
                  (apply_update state update)) as [Hn|[e Hn]];
        rewrite Hn in Hstep; cbn [rbind] in Hstep; [|discriminate].
      injection Hstep as <- _. by right.
    + rewrite workflow_node_tools in Hstep.
      destruct (tools_node Value batch to_str repr state) as [update|e];
        cbn [rbind] in Hstep; [|discriminate].
      rewrite next_node_tools in Hstep. cbn [rbind] in Hstep.
      injection Hstep as <- _. by left.
Qed.

(** X17: with the library's marker "__end__" no run of the compiled graph,
    started at the entry point or resumed before the tool step, ever ends
    cleanly: whatever the model, the tools and the number of steps, the
    outcome is a suspension, an exception or an unfinished run. *)
Theorem X17_no_run_finishes Value model_invoke batch to_str repr fuel state state' :
  app_stream langgraph_END Value model_invoke batch to_str repr fuel state
  <> Finished state'
  /\ app_resume langgraph_END Value model_invoke batch to_str repr fuel
       (lit "tools") state
     <> Finished state'.
Proof.
  split.
  - rewrite app_stream_run. apply run_never_finished. by left.
  - unfold app_resume. apply run_never_finished. by right.
Qed.

(** X18: with the library's marker, a run whose model answers at once,
    without tool calls, ends in [KeyError('__end__')]. *)
Theorem X18_final_answer_ends_in_keyerror
    Value model_invoke batch to_str repr fuel initial c :
  model_invoke (messages initial) = Ok (AIMessage c []) ->
  app_stream langgraph_END Value model_invoke batch to_str repr (S fuel) initial
  = Crashed (KeyError (lit "__end__")) initial.
Proof.
  intros Hm. destruct langgraph_END_not_a_key as (H1 & H2 & H3).
  by apply app_stream_final_keyerror with (c := c).
Qed.

Lemma X18_final_answer_ends_in_keyerror_witness :
  app_stream langgraph_END (list N) demo_model demo_batch id demo_repr 3
    state_question
  = Crashed (KeyError (lit "__end__")) state_question.
Proof.
  apply (X18_final_answer_ends_in_keyerror (list N) demo_model demo_batch id
           demo_repr 2 state_question (lit "done")).
  reflexivity.
Defined.

(** ** The API keys *)

Lemma ensure_key_ok (key prompt : str) (getpass : str -> result (list N))
    (environ environ' : gmap (list N) (list N)) :
  ensure_key key prompt getpass environ = Ok environ' ->
  environ ⊆ environ' /\ is_Some (environ' !! key).
Proof.
  unfold ensure_key. destruct (environ !! key) as [v|] eqn:Hk.
  - intros [= <-]. split; [done|]. rewrite Hk. eauto.
  - destruct (getpass prompt) as [v|e]; cbn [rbind]; [|discriminate].
    intros [= <-]. split; [by apply insert_subseteq|].
    rewrite lookup_insert_eq. eauto.
Qed.

(** X19: when the start-up goes on, both keys are set, and every variable
    the environment already had keeps its value: a key that was set is
    neither asked for nor overwritten. *)
Theorem X19_api_keys_set_and_kept (getpass : str -> result (list N))
    (environ environ' : gmap (list N) (list N)) :
  set_api_keys getpass environ = Continue environ' ->
  environ ⊆ environ'
  /\ is_Some (environ' !! lit "OPENAI_API_KEY")
  /\ is_Some (environ' !! lit "TAVILY_API_KEY").
Proof.
  unfold set_api_keys.
  destruct (ensure_key (lit "OPENAI_API_KEY") _ getpass environ)
    as [env1|e] eqn:H1; cbn [rbind]; [|discriminate].
  destruct (ensure_key (lit "TAVILY_API_KEY") _ getpass env1)
    as [env2|e] eqn:H2; [|discriminate].
  intros [= <-].
  destruct (ensure_key_ok _ _ _ _ _ H1) as [Hsub1 [v1 Hv1]].
  destruct (ensure_key_ok _ _ _ _ _ H2) as [Hsub2 Hset2].
  split; [by etrans|]. split; [|exact Hset2].
  exists v1. by eapply lookup_weaken.
Qed.

Lemma X19_api_keys_set_and_kept_witness :
  demo_environ ⊆ <[lit "OPENAI_API_KEY" := lit "sk-demo"]> demo_environ
  /\ is_Some (<[lit "OPENAI_API_KEY" := lit "sk-demo"]> demo_environ
              !! lit "OPENAI_API_KEY")
  /\ is_Some (<[lit "OPENAI_API_KEY" := lit "sk-demo"]> demo_environ
              !! lit "TAVILY_API_KEY").
Proof.
  apply (X19_api_keys_set_and_kept demo_getpass demo_environ).
  reflexivity.
Defined.

(** X20: when both keys are already in the environment, nothing is asked
    and the environment is left as it is, whatever [getpass] would do. *)
Theorem X20_api_keys_present_no_prompt (getpass : str -> result (list N))
    (environ : gmap (list N) (list N)) :
  is_Some (environ !! lit "OPENAI_API_KEY") ->
  is_Some (environ !! lit "TAVILY_API_KEY") ->
  set_api_keys getpass environ = Continue environ.
Proof.
  intros [v1 H1] [v2 H2]. unfold set_api_keys, ensure_key.
  rewrite H1. cbn [rbind]. by rewrite H2.
Qed.

Lemma X20_api_keys_present_no_prompt_witness :
  set_api_keys (fun _ => Raise IndexError)
    (<[lit "OPENAI_API_KEY" := lit "sk-demo"]> demo_environ)
  = Continue (<[lit "OPENAI_API_KEY" := lit "sk-demo"]> demo_environ).
Proof.
  apply X20_api_keys_present_no_prompt.
  - exists (lit "sk-demo"). reflexivity.
  - exists (lit "tvly-demo"). reflexivity.
Defined.



(** ** Token counts along a conversation *)

Lemma total_content_len_app ms1 ms2 :
  total_content_len (ms1 ++ ms2) = total_content_len ms1 + total_content_len ms2.
Proof.
  induction ms1 as [|m ms1 IH]; cbn [app total_content_len]; lia.
Qed.

(** X22: [prompt_tokens] adds up along the conversation: sending the same
    conversation with further messages appended raises it by the lengths of
    the contents of those messages, whatever their roles. *)
Theorem X22_prompt_tokens_additive model ms more t1 k1 t2 k2 w1 w2 :
  model ∈ supported_models ->
  exists r1 w1' r2 w2',
    create_chat_completion (ChatCompletionRequest.mk model ms t1 k1) w1
    = (Ok r1, w1')
    /\ create_chat_completion
         (ChatCompletionRequest.mk model (ms ++ more) t2 k2) w2
       = (Ok r2, w2')
    /\ UsageInfo.prompt_tokens (ChatCompletionResponse.usage r2)
       = UsageInfo.prompt_tokens (ChatCompletionResponse.usage r1)
         + total_content_len more.
Proof.
  intros Hin.
  destruct (create_chat_completion_supported
              (ChatCompletionRequest.mk model ms t1 k1) w1 Hin)
    as (c1 & _ & Hrun1).
  destruct (create_chat_completion_supported
              (ChatCompletionRequest.mk model (ms ++ more) t2 k2) w2 Hin)
    as (c2 & _ & Hrun2).
  eexists _, _, _, _. split; [exact Hrun1|]. split; [exact Hrun2|].
  cbn [response_of ChatCompletionResponse.usage UsageInfo.prompt_tokens
       ChatCompletionRequest.messages].
  apply total_content_len_app.
Qed.

Lemma X22_prompt_tokens_additive_witness :
  exists r1 w1' r2 w2',
    create_chat_completion
      (ChatCompletionRequest.mk (lit "gpt-4")
         [ChatMessage.mk Role.user (lit "hi")] None None) w0
    = (Ok r1, w1')
    /\ create_chat_completion
         (ChatCompletionRequest.mk (lit "gpt-4")
            ([ChatMessage.mk Role.user (lit "hi")]
             ++ [ChatMessage.mk Role.assistant (lit "hello")]) None None) w0
       = (Ok r2, w2')
    /\ UsageInfo.prompt_tokens (ChatCompletionResponse.usage r2)
       = UsageInfo.prompt_tokens (ChatCompletionResponse.usage r1)
         + total_content_len [ChatMessage.mk Role.assistant (lit "hello")].
Proof.
  apply (X22_prompt_tokens_additive (lit "gpt-4")
           [ChatMessage.mk Role.user (lit "hi")]
           [ChatMessage.mk Role.assistant (lit "hello")] None None None None
           w0 w0).
  supported_model.
Defined.
